(** * msk_cdm.minio: the [MinioAPI] wrapper

    A shallow embedding of [src/msk_cdm/minio/_minio_api.py].  The class keeps
    four connection fields, an optional default bucket and a client handle;
    its methods forward to the Minio SDK.  The SDK, python-dotenv, pandas and
    [str.encode] are not part of the repository: they are taken as interfaces
    ([DotEnv], [MinioSDK], [Pandas]) and every method is written against them.
    Python's [None] is [option]'s [None], a raised exception is the left
    injection of a sum, and the state a method can touch (the process
    environment, the object store behind the SDK, the standard output) is
    threaded explicitly. *)

From Stdlib Require Import String List.
From stdpp Require Import base option strings gmap list.

Open Scope string_scope.

(** ** Python values *)

(** The exceptions that can cross the wrapper.  [KeyError] is what a failed
    [dict_config[...]] raises, [AttributeError] what a method call on [None]
    raises; the others are raised by the libraries. *)
Inductive Exception : Type :=
| KeyError (key : string)
| AttributeError (attr : string)
| TypeError (msg : string)
| ValueError (msg : string)
| UnicodeEncodeError (msg : string)
| OSError (msg : string)
| S3Error (code : string)
| HTTPError (msg : string).

(** The error kinds of the specification, as the exceptions they are. *)
Definition MissingConfiguration (key : string) : Exception := KeyError key.
Definition ObjectNotFound : Exception := S3Error "NoSuchKey".

Definition Result (A : Type) : Type := (Exception + A)%type.

(** Truth value of an [Optional[str]]: [None] and the empty string are
    false. *)
Definition truthy (v : option string) : bool :=
  match v with
  | None => false
  | Some s => negb (String.eqb s "")
  end.

(** [str(v)] for an [Optional[str]], as [%s] formats it. *)
Definition str (v : option string) : string :=
  match v with
  | None => "None"
  | Some s => s
  end.

(** [d[k]] on a dict with [Optional[str]] values. *)
Definition getitem (d : gmap string (option string)) (k : string)
  : Result (option string) :=
  match d !! k with
  | Some v => inr v
  | None => inl (KeyError k)
  end.

(** ** Library data *)

Record PoolManager : Type := mkPoolManager {
  cert_reqs : string;
  pm_ca_certs : option string
}.

Record Object : Type := mkObject {
  obj_bucket_name : option string;
  object_name : string
}.

Record CopySource : Type := mkCopySource {
  src_bucket_name : option string;
  src_object_name : string
}.

Record ObjectWriteResult : Type := mkObjectWriteResult {
  res_bucket_name : option string;
  res_object_name : string;
  res_version_id : option string
}.

Record HTTPResponse : Type := mkHTTPResponse {
  resp_status : nat;
  resp_data : list Byte.byte
}.

(** Keyword arguments of [DataFrame.to_csv] that matter here, with the
    defaults of its signature. *)
Record to_csv_kwargs : Type := mk_to_csv_kwargs {
  kw_sep : string;
  kw_header : bool;
  kw_index : bool
}.

Definition to_csv_defaults : to_csv_kwargs :=
  {| kw_sep := ","; kw_header := true; kw_index := true |}.

(** ** Library interfaces *)

(** python-dotenv.  [dotenv_values path] parses a file into a dict whose
    values are [Optional[str]]; [load_dotenv path] updates [os.environ]. *)
Class DotEnv : Type := {
  dotenv_values : string -> Result (gmap string (option string));
  load_dotenv : option string -> gmap string string -> Result (gmap string string)
}.

(** The Minio SDK over a store of type [Server]: the constructor and the five
    methods the wrapper calls.  Bucket names are [Optional[str]] because the
    wrapper's bucket parameters default to [None]. *)
Class MinioSDK (Client Server : Type) : Type := {
  Minio : option string -> option string -> option string -> bool ->
          PoolManager -> Result Client;
  list_objects : Client -> option string -> bool -> option string ->
                 Server -> Server * Result (list Object);
  get_object : Client -> option string -> string ->
               Server -> Server * Result HTTPResponse;
  put_object : Client -> option string -> string -> list Byte.byte -> nat ->
               string -> Server -> Server * Result ObjectWriteResult;
  remove_object : Client -> option string -> string ->
                  Server -> Server * Result unit;
  copy_object : Client -> option string -> string -> CopySource ->
                Server -> Server * Result ObjectWriteResult
}.

(** pandas' [DataFrame.to_csv] (returning the text) and [str.encode]. *)
Class Pandas (DataFrame : Type) : Type := {
  to_csv : DataFrame -> to_csv_kwargs -> Result string;
  encode : string -> string -> Result (list Byte.byte)
}.

(** ** State and the method monad *)

Record World (Server : Type) : Type := mkWorld {
  environ : gmap string string;
  server : Server;
  stdout : list string
}.
Arguments mkWorld {Server} _ _ _.
Arguments environ {Server} _.
Arguments server {Server} _.
Arguments stdout {Server} _.

Definition M (Server A : Type) : Type :=
  World Server -> World Server * Result A.

Definition ret {Server A} (a : A) : M Server A := fun w => (w, inr a).

Definition raise {Server A} (e : Exception) : M Server A := fun w => (w, inl e).

Definition bind {Server A B} (m : M Server A) (k : A -> M Server B)
  : M Server B :=
  fun w =>
    match m w with
    | (w', inr a) => k a w'
    | (w', inl e) => (w', inl e)
    end.

Notation "'let*' x ':=' m 'in' k" := (bind m (fun x => k))
  (at level 10, x name, m at level 100, k at level 200, only parsing).

(** A pure call that may raise. *)
Definition lift {Server A} (r : Result A) : M Server A := fun w => (w, r).

(** [os.getenv(name)]. *)
Definition os_getenv {Server} (name : string) : M Server (option string) :=
  fun w => (w, inr (environ w !! name)).

(** A call that updates [os.environ]. *)
Definition on_environ {Server}
    (f : gmap string string -> Result (gmap string string)) : M Server unit :=
  fun w =>
    match f (environ w) with
    | inr env' => (mkWorld env' (server w) (stdout w), inr tt)
    | inl e => (w, inl e)
    end.

(** A call into the SDK. *)
Definition on_server {Server A} (f : Server -> Server * Result A)
  : M Server A :=
  fun w =>
    let '(s', r) := f (server w) in
    (mkWorld (environ w) s' (stdout w), r).

(** [print(line)]. *)
Definition print {Server} (line : string) : M Server unit :=
  fun w => (mkWorld (environ w) (server w) (stdout w ++ [line])%list, inr tt).

(** ** The class *)

Section MinioAPI.

Context {Client Server DataFrame : Type}.
Context {dotenv : DotEnv} {sdk : MinioSDK Client Server}
        {pandas : Pandas DataFrame}.

(** Instance attributes, as [__init__] creates them. *)
Record MinioAPI : Type := mkMinioAPI {
  _ACCESS_KEY : option string;
  _SECRET_KEY : option string;
  _ca_certs : option string;
  _url_port : option string;
  _bucket : option string;
  _client : option Client
}.

(** The keyword-only arguments of the constructor, with their defaults. *)
Record InitArgs : Type := mkInitArgs {
  ACCESS_KEY : option string;
  SECRET_KEY : option string;
  ca_certs : option string;
  url_port : option string;
  fname_minio_env : option string
}.

Definition InitArgs_defaults : InitArgs :=
  {| ACCESS_KEY := None;
     SECRET_KEY := None;
     ca_certs := None;
     url_port := Some "tllihpcmind6:9000";
     fname_minio_env := None |}.

Local Abbreviation Meth := (M Server).

(** The overlay of lines 132-138: a truthy environment value replaces the
    entry of the dict. *)
Definition overlay (key : string) (env_value : option string)
    (dict_config : gmap string (option string)) : gmap string (option string) :=
  if truthy env_value then <[key := env_value]> dict_config else dict_config.

(** [_process_env], lines 128-144.  An exception leaves the constructor, so
    the attributes assigned before it are not observable: the updated object
    is the result. *)
Definition _process_env (self : MinioAPI) (fname : string) : Meth MinioAPI :=
  let* dict_config := lift (dotenv_values fname) in
  let* minio_env := lift (getitem dict_config "MINIO_ENV") in
  let* _ := on_environ (load_dotenv minio_env) in
  let* env_access_key := os_getenv "ACCESS_KEY" in
  let dict_config := overlay "ACCESS_KEY" env_access_key dict_config in
  let* env_secret_key := os_getenv "SECRET_KEY" in
  let dict_config := overlay "SECRET_KEY" env_secret_key dict_config in
  let* access_key := lift (getitem dict_config "ACCESS_KEY") in
  let* secret_key := lift (getitem dict_config "SECRET_KEY") in
  let* ca := lift (getitem dict_config "CA_CERTS") in
  let* endpoint := lift (getitem dict_config "URL_PORT") in
  let* bucket := lift (getitem dict_config "BUCKET") in
  ret {| _ACCESS_KEY := access_key;
         _SECRET_KEY := secret_key;
         _ca_certs := ca;
         _url_port := endpoint;
         _bucket := bucket;
         _client := _client self |}.

(** [_connect], lines 146-161. *)
Definition _connect (self : MinioAPI) : Meth MinioAPI :=
  let httpClient :=
    {| cert_reqs := "CERT_REQUIRED"; pm_ca_certs := _ca_certs self |} in
  let* client :=
    lift (Minio (_url_port self) (_ACCESS_KEY self) (_SECRET_KEY self)
                true httpClient) in
  ret {| _ACCESS_KEY := _ACCESS_KEY self;
         _SECRET_KEY := _SECRET_KEY self;
         _ca_certs := _ca_certs self;
         _url_port := _url_port self;
         _bucket := _bucket self;
         _client := Some client |}.

(** [__init__], lines 20-51. *)
Definition __init__ (args : InitArgs) : Meth MinioAPI :=
  let self :=
    {| _ACCESS_KEY := ACCESS_KEY args;
       _SECRET_KEY := SECRET_KEY args;
       _ca_certs := ca_certs args;
       _url_port := url_port args;
       _bucket := None;
       _client := None |} in
  let* self :=
    match fname_minio_env args with
    | Some fname => _process_env self fname
    | None => ret self
    end in
  _connect self.

(** [self._client.<method>]: the attribute lookup fails on [None]. *)
Definition client_method (self : MinioAPI) (method : string) : Meth Client :=
  match _client self with
  | Some c => ret c
  | None => raise (AttributeError method)
  end.

(** The guard that opens four of the methods:
    [if self._bucket is not None: bucket_name = self._bucket]. *)
Definition default_bucket (self : MinioAPI) (bucket_name : option string)
  : option string :=
  match _bucket self with
  | Some b => Some b
  | None => bucket_name
  end.

(** [print_list_objects], lines 53-64. *)
Definition print_list_objects (self : MinioAPI) (bucket_name prefix : option string)
    (recursive : bool) : Meth (list string) :=
  let bucket_name := default_bucket self bucket_name in
  let* c := client_method self "list_objects" in
  let* objs := on_server (list_objects c bucket_name recursive prefix) in
  let obj_list :=
    fold_left (fun obj_list obj => (obj_list ++ [object_name obj])%list) objs [] in
  ret obj_list.

(** [load_obj], lines 66-85. *)
Definition load_obj (self : MinioAPI) (path_object : string)
    (bucket_name : option string) : Meth HTTPResponse :=
  let bucket_name := default_bucket self bucket_name in
  let* c := client_method self "get_object" in
  let* obj := on_server (get_object c bucket_name path_object) in
  ret obj.

(** [save_obj], lines 87-102.  [BytesIO(csv_bytes)] is the byte string
    itself; the method returns [None]. *)
Definition save_obj (self : MinioAPI) (df : DataFrame) (path_object sep : string)
    (bucket_name : option string) : Meth unit :=
  let bucket_name := default_bucket self bucket_name in
  let* text :=
    lift (to_csv df {| kw_sep := sep;
                       kw_header := kw_header to_csv_defaults;
                       kw_index := false |}) in
  let* csv_bytes := lift (encode text "utf-8") in
  let csv_buffer := csv_bytes in
  let* c := client_method self "put_object" in
  let* _ :=
    on_server (put_object c bucket_name path_object csv_buffer
                          (List.length csv_bytes) "application/csv") in
  ret tt.

(** The line [remove_obj] prints. *)
Definition removed_message (bucket_name : option string) (path_object : string)
  : string :=
  "Object removed. Bucket: " ++ str bucket_name ++ ", Object: " ++ path_object.

(** [remove_obj], lines 104-109.  There is no default-bucket guard here. *)
Definition remove_obj (self : MinioAPI) (path_object : string)
    (bucket_name : option string) : Meth unit :=
  let* c := client_method self "remove_object" in
  let* _ := on_server (remove_object c bucket_name path_object) in
  let* _ := print (removed_message bucket_name path_object) in
  ret tt.

(** [copy_obj], lines 111-126.  The result is the two-element list
    [[result.object_name, result.version_id]]. *)
Definition copy_obj (self : MinioAPI) (source_path_object dest_path_object : string)
    (source_bucket dest_bucket : option string) : Meth (list (option string)) :=
  let source_bucket := default_bucket self source_bucket in
  let dest_bucket := default_bucket self dest_bucket in
  let* c := client_method self "copy_object" in
  let* result :=
    on_server (copy_object c dest_bucket dest_path_object
                 {| src_bucket_name := source_bucket;
                    src_object_name := source_path_object |}) in
  let output := [Some (res_object_name result); res_version_id result] in
  ret output.

End MinioAPI.

Arguments MinioAPI : clear implicits.

(** ** In-memory libraries

    Small executable instances of the three interfaces.  They are used to
    run the methods on concrete inputs; no general theorem depends on them. *)

Fixpoint assoc {A} (k : string) (l : list (string * A)) : option A :=
  match l with
  | [] => None
  | (k', v) :: l' => if String.eqb k k' then Some v else assoc k l'
  end.

Fixpoint assoc_set {A} (k : string) (v : A) (l : list (string * A))
  : list (string * A) :=
  match l with
  | [] => [(k, v)]
  | (k', v') :: l' =>
      if String.eqb k k' then (k, v) :: l' else (k', v') :: assoc_set k v l'
  end.

Fixpoint assoc_del {A} (k : string) (l : list (string * A))
  : list (string * A) :=
  match l with
  | [] => []
  | (k', v') :: l' =>
      if String.eqb k k' then assoc_del k l' else (k', v') :: assoc_del k l'
  end.

(** *** Env files: a table from path to [KEY=value] lines *)

Definition EnvFiles : Type := list (string * list (string * option string)).

Definition files_dotenv_values (files : EnvFiles) (path : string)
  : Result (gmap string (option string)) :=
  match assoc path files with
  | Some lines => inr (list_to_map lines)
  | None => inr ∅
  end.

(** Variables already in the environment are kept; lines without a value
    are skipped. *)
Definition files_load_dotenv (files : EnvFiles) (path : option string)
    (env : gmap string string) : Result (gmap string string) :=
  match path with
  | None => inr env
  | Some p =>
      match assoc p files with
      | None => inr env
      | Some lines =>
          inr (fold_left
                 (fun env line =>
                    match snd line, env !! fst line with
                    | Some v, None => <[fst line := v]> env
                    | _, _ => env
                    end) lines env)
      end
  end.

Definition FilesDotEnv (files : EnvFiles) : DotEnv :=
  {| dotenv_values := files_dotenv_values files;
     load_dotenv := files_load_dotenv files |}.

(** *** Object store: buckets of keyed objects *)

Record MemClient : Type := mkMemClient {
  mc_endpoint : string;
  mc_access_key : option string;
  mc_secret_key : option string;
  mc_secure : bool;
  mc_http_client : PoolManager
}.

Record MemObject : Type := mkMemObject {
  mo_data : list Byte.byte;
  mo_length : nat;
  mo_content_type : string
}.

Definition MemServer : Type := list (string * list (string * MemObject)).

Definition mem_Minio (endpoint access_key secret_key : option string)
    (secure : bool) (http_client : PoolManager) : Result MemClient :=
  match endpoint with
  | Some e => inr (mkMemClient e access_key secret_key secure http_client)
  | None => inl (ValueError "endpoint")
  end.

(** Runs [k] on the objects of the named bucket. *)
Definition with_bucket {A} (bucket_name : option string) (s : MemServer)
    (k : string -> list (string * MemObject) -> MemServer * Result A)
  : MemServer * Result A :=
  match bucket_name with
  | None => (s, inl (ValueError "bucket_name"))
  | Some b =>
      match assoc b s with
      | None => (s, inl (S3Error "NoSuchBucket"))
      | Some objs => k b objs
      end
  end.

Definition has_prefix (prefix : option string) (key : string) : bool :=
  match prefix with
  | None => true
  | Some p => String.prefix p key
  end.

Definition mem_list_objects (c : MemClient) (bucket_name : option string)
    (recursive : bool) (prefix : option string) (s : MemServer)
  : MemServer * Result (list Object) :=
  with_bucket bucket_name s (fun b objs =>
    (s, inr (List.map (fun kv => mkObject (Some b) (fst kv))
               (List.filter (fun kv => has_prefix prefix (fst kv)) objs)))).

Definition mem_get_object (c : MemClient) (bucket_name : option string)
    (key : string) (s : MemServer) : MemServer * Result HTTPResponse :=
  with_bucket bucket_name s (fun b objs =>
    match assoc key objs with
    | Some o => (s, inr (mkHTTPResponse 200 (mo_data o)))
    | None => (s, inl (S3Error "NoSuchKey"))
    end).

Definition mem_put_object (c : MemClient) (bucket_name : option string)
    (key : string) (data : list Byte.byte) (len : nat) (content_type : string)
    (s : MemServer) : MemServer * Result ObjectWriteResult :=
  with_bucket bucket_name s (fun b objs =>
    (assoc_set b (assoc_set key (mkMemObject data len content_type) objs) s,
     inr (mkObjectWriteResult (Some b) key None))).

Definition mem_remove_object (c : MemClient) (bucket_name : option string)
    (key : string) (s : MemServer) : MemServer * Result unit :=
  with_bucket bucket_name s (fun b objs =>
    (assoc_set b (assoc_del key objs) s, inr tt)).

Definition mem_copy_object (c : MemClient) (bucket_name : option string)
    (key : string) (source : CopySource) (s : MemServer)
  : MemServer * Result ObjectWriteResult :=
  with_bucket (src_bucket_name source) s (fun _ src_objs =>
    match assoc (src_object_name source) src_objs with
    | None => (s, inl (S3Error "NoSuchKey"))
    | Some o =>
        with_bucket bucket_name s (fun b objs =>
          (assoc_set b (assoc_set key o objs) s,
           inr (mkObjectWriteResult (Some b) key None)))
    end).

Definition MemSDK : MinioSDK MemClient MemServer :=
  {| Minio := mem_Minio;
     list_objects := mem_list_objects;
     get_object := mem_get_object;
     put_object := mem_put_object;
     remove_object := mem_remove_object;
     copy_object := mem_copy_object |}.

(** *** Tables of text cells *)

Record Frame : Type := mkFrame {
  columns : list string;
  rows : list (list string)
}.

Definition join_line (sep : string) (cells : list string) : string :=
  String.concat sep cells ++ String (Ascii.ascii_of_nat 10) "".

(** Cells are written as they are; only [index=False] is supported. *)
Definition frame_to_csv (df : Frame) (kw : to_csv_kwargs) : Result string :=
  if negb (Nat.eqb (String.length (kw_sep kw)) 1) then
    inl (TypeError "delimiter must be a 1-character string")
  else if kw_index kw then
    inl (TypeError "index")
  else
    inr (String.concat ""
           ((if kw_header kw then [join_line (kw_sep kw) (columns df)] else [])
            ++ List.map (join_line (kw_sep kw)) (rows df))%list).

Definition is_ascii (s : string) : bool :=
  forallb (fun b => Nat.ltb (Byte.to_nat b) 128) (list_byte_of_string s).

(** ASCII text only, where UTF-8 is the identity on bytes. *)
Definition ascii_encode (text codec : string) : Result (list Byte.byte) :=
  if negb (String.eqb codec "utf-8") then inl (ValueError "unknown encoding")
  else if is_ascii text then inr (list_byte_of_string text)
  else inl (UnicodeEncodeError "non-ASCII text").

Definition FramePandas : Pandas Frame :=
  {| to_csv := frame_to_csv; encode := ascii_encode |}.

(** ** The backend of the specification *)

(** Modelled from the spec: the object reference of section 3, "a (bucket,
    key) pair identifying a remote object", with the bucket as the wrapper
    passes it. *)
Definition ObjectRef : Type := (option string * string)%type.

(** Modelled from the spec: the state of the storage backend, which is not
    part of the repository: its objects with their content, oldest first. *)
Definition SpecStore : Type := list (ObjectRef * list Byte.byte).

(** Modelled from the spec: the client handle of section 3, "bound to one
    endpoint and credential pair", with the pool manager that holds the CA
    bundle. *)
Record SpecClient : Type := mkSpecClient {
  sc_endpoint : option string;
  sc_access_key : option string;
  sc_secret_key : option string;
  sc_http_client : PoolManager
}.

(** Modelled from the spec: the object a reference identifies, if any. *)
Fixpoint spec_lookup (s : SpecStore) (ref : ObjectRef)
  : option (list Byte.byte) :=
  match s with
  | [] => None
  | (r, data) :: s' =>
      if decide (r = ref) then Some data else spec_lookup s' ref
  end.

(** Modelled from the spec: an upload replaces the content under [ref], or
    adds the object as the newest. *)
Fixpoint spec_store (s : SpecStore) (ref : ObjectRef) (data : list Byte.byte)
  : SpecStore :=
  match s with
  | [] => [(ref, data)]
  | (r, d) :: s' =>
      if decide (r = ref) then (r, data) :: s'
      else (r, d) :: spec_store s' ref data
  end.

(** Modelled from the spec: removal of the object under [ref]; nothing
    changes when there is none. *)
Fixpoint spec_delete (s : SpecStore) (ref : ObjectRef) : SpecStore :=
  match s with
  | [] => []
  | (r, d) :: s' =>
      if decide (r = ref) then spec_delete s' ref
      else (r, d) :: spec_delete s' ref
  end.

(** Modelled from the spec: the storage backend behind the SDK's
    [copy_object], which is not part of the repository.  Section 4.2:
    "server-side copy; returns the resulting object identifier and version
    marker; fails with ObjectNotFound if the source is absent"; section 8:
    "it must not create a destination object".  The source is absent when
    the store has no object under the source reference; the version marker
    of the model is [None]. *)
Definition spec_copy_object (bucket_name : option string) (key : string)
    (source : CopySource) (s : SpecStore)
  : SpecStore * Result ObjectWriteResult :=
  match spec_lookup s (src_bucket_name source, src_object_name source) with
  | None => (s, inl ObjectNotFound)
  | Some data =>
      (spec_store s (bucket_name, key) data,
       inr (mkObjectWriteResult bucket_name key None))
  end.

(** Modelled from the spec: list, section 4.2, the "ordered sequence of
    object keys (insertion order as returned by the backend); empty
    sequence if none match".  The [recursive] flag, of which the
    specification says nothing, is not used. *)
Definition spec_list_objects (bucket_name : option string) (recursive : bool)
    (prefix : option string) (s : SpecStore)
  : SpecStore * Result (list Object) :=
  (s,
   inr (List.map (fun entry => mkObject bucket_name (snd (fst entry)))
          (List.filter
             (fun entry =>
                bool_decide (fst (fst entry) = bucket_name) &&
                match prefix with
                | None => true
                | Some p => String.prefix p (snd (fst entry))
                end) s))).

(** Modelled from the spec: read, section 4.2, "fails with ObjectNotFound
    when the key does not exist". *)
Definition spec_get_object (bucket_name : option string) (key : string)
    (s : SpecStore) : SpecStore * Result HTTPResponse :=
  match spec_lookup s (bucket_name, key) with
  | Some data => (s, inr (mkHTTPResponse 200 data))
  | None => (s, inl ObjectNotFound)
  end.

(** Modelled from the spec: the upload of write, section 4.2, on a backend
    that is reached. *)
Definition spec_put_object (bucket_name : option string) (key : string)
    (data : list Byte.byte) (len : nat) (content_type : string)
    (s : SpecStore) : SpecStore * Result ObjectWriteResult :=
  (spec_store s (bucket_name, key) data,
   inr (mkObjectWriteResult bucket_name key None)).

(** Modelled from the spec: delete, section 4.2, "removes the object";
    section 7, absence is "a no-op success". *)
Definition spec_remove_object (bucket_name : option string) (key : string)
    (s : SpecStore) : SpecStore * Result unit :=
  (spec_delete s (bucket_name, key), inr tt).

(** Modelled from the spec: the SDK over this backend; the constructor
    returns the handle for its arguments. *)
Definition SpecSDK : MinioSDK SpecClient SpecStore :=
  {| Minio := fun endpoint access_key secret_key secure http_client =>
       inr (mkSpecClient endpoint access_key secret_key http_client);
     list_objects := fun _ => spec_list_objects;
     get_object := fun _ => spec_get_object;
     put_object := fun _ => spec_put_object;
     remove_object := fun _ => spec_remove_object;
     copy_object := fun _ => spec_copy_object |}.

(** ** Definitions used in the statements *)

(** The fields [_process_env] reads after the overlay. *)
Definition required_fields : list string :=
  ["ACCESS_KEY"; "SECRET_KEY"; "CA_CERTS"; "URL_PORT"; "BUCKET"].

(** The dict of lines 140-144: the file's dict with both overlays applied,
    [env] being the environment that [os.getenv] reads. *)
Definition resolved_config (d : gmap string (option string))
    (env : gmap string string) : gmap string (option string) :=
  overlay "SECRET_KEY" (env !! "SECRET_KEY")
    (overlay "ACCESS_KEY" (env !! "ACCESS_KEY") d).

(** Lines 140-144 on a given dict. *)
Definition read_fields {Client} (self : MinioAPI Client)
    (cfg : gmap string (option string)) : Result (MinioAPI Client) :=
  match getitem cfg "ACCESS_KEY" with
  | inl e => inl e
  | inr a =>
  match getitem cfg "SECRET_KEY" with
  | inl e => inl e
  | inr s =>
  match getitem cfg "CA_CERTS" with
  | inl e => inl e
  | inr c =>
  match getitem cfg "URL_PORT" with
  | inl e => inl e
  | inr u =>
  match getitem cfg "BUCKET" with
  | inl e => inl e
  | inr b => inr (mkMinioAPI a s c u b (_client self))
  end end end end end.

(** The five operations on a fixed client and fixed buckets: one SDK call
    each, with the conversions of the wrapper around it.  "The method uses
    bucket [b]" is stated as "the method equals the operation on [b]". *)
Section Operations.

Context {Client Server DataFrame : Type} {sdk : MinioSDK Client Server}
        {pandas : Pandas DataFrame}.

Definition list_in (c : Client) (bucket prefix : option string)
    (recursive : bool) : M Server (list string) :=
  fun w =>
    let '(s', r) := list_objects c bucket recursive prefix (server w) in
    (mkWorld (environ w) s' (stdout w),
     match r with
     | inr objs => inr (List.map object_name objs)
     | inl e => inl e
     end).

Definition read_in (c : Client) (bucket : option string) (key : string)
  : M Server HTTPResponse :=
  fun w =>
    let '(s', r) := get_object c bucket key (server w) in
    (mkWorld (environ w) s' (stdout w), r).

Definition write_in (c : Client) (bucket : option string) (df : DataFrame)
    (key sep : string) : M Server unit :=
  fun w =>
    match to_csv df {| kw_sep := sep; kw_header := true; kw_index := false |} with
    | inl e => (w, inl e)
    | inr text =>
        match encode text "utf-8" with
        | inl e => (w, inl e)
        | inr csv_bytes =>
            let '(s', r) :=
              put_object c bucket key csv_bytes (List.length csv_bytes)
                "application/csv" (server w) in
            (mkWorld (environ w) s' (stdout w),
             match r with
             | inr _ => inr tt
             | inl e => inl e
             end)
        end
    end.

Definition delete_in (c : Client) (bucket : option string) (key : string)
  : M Server unit :=
  fun w =>
    let '(s', r) := remove_object c bucket key (server w) in
    match r with
    | inr _ =>
        (mkWorld (environ w) s'
           (stdout w ++ [removed_message bucket key])%list, inr tt)
    | inl e => (mkWorld (environ w) s' (stdout w), inl e)
    end.

Definition copy_in (c : Client) (source_bucket dest_bucket : option string)
    (source_key dest_key : string) : M Server (list (option string)) :=
  fun w =>
    let '(s', r) :=
      copy_object c dest_bucket dest_key
        (mkCopySource source_bucket source_key) (server w) in
    (mkWorld (environ w) s' (stdout w),
     match r with
     | inr result => inr [Some (res_object_name result); res_version_id result]
     | inl e => inl e
     end).

End Operations.

(** ** Example inputs *)

Definition main_lines : list (string * option string) :=
  [("ACCESS_KEY", Some "filekey"); ("SECRET_KEY", Some "filesecret");
   ("CA_CERTS", Some "/etc/ssl/ca.pem"); ("URL_PORT", Some "minio:9000");
   ("BUCKET", Some "data")].

(** A main file pointing to a secondary file that sets both keys. *)
Definition files_override : EnvFiles :=
  [("minio.env", ("MINIO_ENV", Some "secret.env") :: main_lines);
   ("secret.env", [("ACCESS_KEY", Some "envkey");
                   ("SECRET_KEY", Some "envsecret")])].

(** A main file pointing to a secondary file that sets nothing. *)
Definition files_plain : EnvFiles :=
  [("minio.env", ("MINIO_ENV", Some "secret.env") :: main_lines);
   ("secret.env", [])].

(** The five fields without the [MINIO_ENV] line. *)
Definition files_no_indirection : EnvFiles :=
  [("minio.env", main_lines)].

(** No [BUCKET] line. *)
Definition files_no_bucket : EnvFiles :=
  [("minio.env",
    [("MINIO_ENV", Some "secret.env");
     ("ACCESS_KEY", Some "filekey"); ("SECRET_KEY", Some "filesecret");
     ("CA_CERTS", Some "/etc/ssl/ca.pem"); ("URL_PORT", Some "minio:9000")]);
   ("secret.env", [])].

Definition csv_object : MemObject :=
  mkMemObject (list_byte_of_string "x") 1 "application/csv".

(** Two buckets holding an object under the same key. *)
Definition store0 : MemServer :=
  [("data", [("a.csv", csv_object)]); ("other", [("a.csv", csv_object)])].

Definition world0 : World MemServer := mkWorld ∅ store0 [].

(** [ACCESS_KEY] is set in the process environment, to the empty string. *)
Definition world_blank_key : World MemServer :=
  mkWorld {["ACCESS_KEY" := ""]} store0 [].

Definition client0 : MemClient :=
  mkMemClient "minio:9000" (Some "filekey") (Some "filesecret") true
    (mkPoolManager "CERT_REQUIRED" (Some "/etc/ssl/ca.pem")).

(** The object [__init__] starts from when no argument is passed. *)
Definition api_blank : MinioAPI MemClient :=
  mkMinioAPI None None None (Some "tllihpcmind6:9000") None None.

(** A connected client with default bucket [data]. *)
Definition api_data : MinioAPI MemClient :=
  mkMinioAPI (Some "filekey") (Some "filesecret") (Some "/etc/ssl/ca.pem")
    (Some "minio:9000") (Some "data") (Some client0).

(** A connected client without default bucket. *)
Definition api_nobucket : MinioAPI MemClient :=
  mkMinioAPI (Some "filekey") (Some "filesecret") (Some "/etc/ssl/ca.pem")
    (Some "minio:9000") None (Some client0).

(** The environment after [secret.env] of [files_override] is loaded into
    an empty one, and the object resolved from it. *)
Definition world_override : World MemServer :=
  mkWorld {["ACCESS_KEY" := "envkey"; "SECRET_KEY" := "envsecret"]} store0 [].

Definition api_override : MinioAPI MemClient :=
  mkMinioAPI (Some "envkey") (Some "envsecret") (Some "/etc/ssl/ca.pem")
    (Some "minio:9000") (Some "data") None.

(** What [__init__] builds from the default arguments on the in-memory
    SDK. *)
Definition api_fresh : MinioAPI MemClient :=
  mkMinioAPI None None None (Some "tllihpcmind6:9000") None
    (Some (mkMemClient "tllihpcmind6:9000" None None true
             (mkPoolManager "CERT_REQUIRED" None))).

Definition frame0 : Frame :=
  mkFrame ["id"; "name"] [["1"; "ann"]; ["2"; "bob"]].

Definition nl : string := String (Ascii.ascii_of_nat 10) "".

(** [frame0] as delimited text with a header row and no index column. *)
Definition frame0_csv : string :=
  "id,name" ++ nl ++ "1,ann" ++ nl ++ "2,bob" ++ nl.

(** [store0] after [frame0] is written to [data] under [a/b.csv]. *)
Definition store_written : MemServer :=
  [("data",
    [("a.csv", csv_object);
     ("a/b.csv",
      mkMemObject (list_byte_of_string frame0_csv) (String.length frame0_csv)
        "application/csv")]);
   ("other", [("a.csv", csv_object)])].

(** Constructor arguments naming [minio.env], without and with explicit
    credentials and endpoint. *)
Definition args_env : InitArgs :=
  mkInitArgs None None None (Some "tllihpcmind6:9000") (Some "minio.env").

Definition args_env_explicit : InitArgs :=
  mkInitArgs (Some "argkey") (Some "argsecret") (Some "/tmp/arg.pem")
    (Some "arghost:9000") (Some "minio.env").

(** What [__init__] builds from [files_plain]. *)
Definition api_from_file : MinioAPI MemClient :=
  mkMinioAPI (Some "filekey") (Some "filesecret") (Some "/etc/ssl/ca.pem")
    (Some "minio:9000") (Some "data") (Some client0).

(** The environment names a bucket, a CA bundle and an endpoint of its
    own. *)
Definition world_env_bucket : World MemServer :=
  mkWorld {["BUCKET" := "envbucket"; "CA_CERTS" := "/env/ca.pem";
            "URL_PORT" := "envhost:1"]} store0 [].

(** The main file has no key lines; the secondary file supplies both. *)
Definition files_keys_in_secret : EnvFiles :=
  [("minio.env",
    [("MINIO_ENV", Some "secret.env"); ("CA_CERTS", Some "/etc/ssl/ca.pem");
     ("URL_PORT", Some "minio:9000"); ("BUCKET", Some "data")]);
   ("secret.env", [("ACCESS_KEY", Some "envkey");
                   ("SECRET_KEY", Some "envsecret")])].


(** A store of the specification's backend with one object in [data], a
    connected client with default bucket [data], and their world. *)
Definition spec_store0 : SpecStore :=
  [((Some "data", "a.csv"), list_byte_of_string "x")].

Definition spec_client : SpecClient :=
  mkSpecClient (Some "minio:9000") (Some "filekey") (Some "filesecret")
    (mkPoolManager "CERT_REQUIRED" (Some "/etc/ssl/ca.pem")).

Definition spec_api : MinioAPI SpecClient :=
  mkMinioAPI (Some "filekey") (Some "filesecret") (Some "/etc/ssl/ca.pem")
    (Some "minio:9000") (Some "data") (Some spec_client).

Definition spec_world : World SpecStore := mkWorld ∅ spec_store0 [].

(** ** Configuration resolution *)

Lemma truthy_Some_nonempty (s : string) : s ≠ "" → truthy (Some s) = true.
Proof.
  intros Hs. simpl. destruct (String.eqb_spec s ""); [contradiction | reflexivity].
Qed.

Lemma overlay_lookup_eq (k : string) (v : option string)
    (d : gmap string (option string)) :
  overlay k v d !! k = if truthy v then Some v else d !! k.
Proof.
  unfold overlay. destruct (truthy v); [apply lookup_insert_eq | reflexivity].
Qed.

Lemma overlay_lookup_ne (k k' : string) (v : option string)
    (d : gmap string (option string)) :
  k ≠ k' → overlay k v d !! k' = d !! k'.
Proof.
  intros Hne. unfold overlay.
  destruct (truthy v); [by apply lookup_insert_ne | reflexivity].
Qed.

Lemma resolved_ACCESS_KEY d env :
  resolved_config d env !! "ACCESS_KEY" =
  if truthy (env !! "ACCESS_KEY") then Some (env !! "ACCESS_KEY")
  else d !! "ACCESS_KEY".
Proof.
  unfold resolved_config.
  rewrite overlay_lookup_ne by discriminate. apply overlay_lookup_eq.
Qed.

Lemma resolved_SECRET_KEY d env :
  resolved_config d env !! "SECRET_KEY" =
  if truthy (env !! "SECRET_KEY") then Some (env !! "SECRET_KEY")
  else d !! "SECRET_KEY".
Proof.
  unfold resolved_config. rewrite overlay_lookup_eq.
  destruct (truthy _); [reflexivity |].
  by rewrite overlay_lookup_ne by discriminate.
Qed.

Lemma resolved_other d env k :
  k ≠ "ACCESS_KEY" → k ≠ "SECRET_KEY" → resolved_config d env !! k = d !! k.
Proof.
  intros Ha Hs. unfold resolved_config.
  rewrite !overlay_lookup_ne by congruence. reflexivity.
Qed.

(** Closes [k ∈ required_fields ∧ cfg !! k = None ∧ _] for a literal [k]. *)
Ltac field_missing :=
  split; [unfold required_fields; rewrite !elem_of_cons; tauto |];
  split; [assumption | reflexivity].

Section Configuration.

Context {Client Server : Type} {dotenv : DotEnv}.

(** Once the file is parsed and the secondary file loaded, [_process_env]
    reads its five fields from [resolved_config]. *)
Lemma _process_env_loaded (self : MinioAPI Client) fname (w : World Server)
    d p env' :
  dotenv_values fname = inr d →
  d !! "MINIO_ENV" = Some p →
  load_dotenv p (environ w) = inr env' →
  _process_env self fname w =
  (mkWorld env' (server w) (stdout w),
   read_fields self (resolved_config d env')).
Proof.
  intros Hd Hp Hl.
  unfold _process_env, bind, lift, on_environ, os_getenv, ret, read_fields.
  rewrite Hd. unfold getitem at 1. rewrite Hp, Hl. simpl.
  fold (resolved_config d env').
  repeat (destruct (getitem (resolved_config d env') _); [reflexivity |]).
  reflexivity.
Qed.

(** Without the [MINIO_ENV] key the method stops at line 130. *)
Lemma _process_env_no_MINIO_ENV (self : MinioAPI Client) fname
    (w : World Server) d :
  dotenv_values fname = inr d →
  d !! "MINIO_ENV" = None →
  _process_env self fname w = (w, inl (KeyError "MINIO_ENV")).
Proof.
  intros Hd Hp. unfold _process_env, bind, lift.
  rewrite Hd. unfold getitem. rewrite Hp. reflexivity.
Qed.

(** What a successful run went through. *)
Lemma _process_env_inr (self self' : MinioAPI Client) fname
    (w w' : World Server) :
  _process_env self fname w = (w', inr self') →
  ∃ d p,
    dotenv_values fname = inr d ∧
    d !! "MINIO_ENV" = Some p ∧
    load_dotenv p (environ w) = inr (environ w') ∧
    w' = mkWorld (environ w') (server w) (stdout w) ∧
    read_fields self (resolved_config d (environ w')) = inr self'.
Proof.
  intros Hrun.
  destruct (dotenv_values fname) as [e | d] eqn:Hd.
  { unfold _process_env, bind, lift in Hrun. rewrite Hd in Hrun. discriminate. }
  destruct (d !! "MINIO_ENV") as [p |] eqn:Hp.
  2: { rewrite (_process_env_no_MINIO_ENV _ _ _ d) in Hrun by assumption.
       discriminate. }
  destruct (load_dotenv p (environ w)) as [e | env'] eqn:Hl.
  { unfold _process_env, bind, lift, on_environ in Hrun.
    rewrite Hd in Hrun. unfold getitem at 1 in Hrun.
    rewrite Hp, Hl in Hrun. discriminate. }
  rewrite (_process_env_loaded _ _ _ d p env') in Hrun by assumption.
  injection Hrun as <- Hread. exists d, p. simpl. auto.
Qed.

Lemma read_fields_inr (self self' : MinioAPI Client) cfg :
  read_fields self cfg = inr self' ↔
  cfg !! "ACCESS_KEY" = Some (_ACCESS_KEY self') ∧
  cfg !! "SECRET_KEY" = Some (_SECRET_KEY self') ∧
  cfg !! "CA_CERTS" = Some (_ca_certs self') ∧
  cfg !! "URL_PORT" = Some (_url_port self') ∧
  cfg !! "BUCKET" = Some (_bucket self') ∧
  _client self' = _client self.
Proof.
  unfold read_fields, getitem. split.
  - repeat (match goal with
            | |- context [cfg !! ?k] => destruct (cfg !! k); [| discriminate]
            end).
    intros [= <-]. simpl. auto 10.
  - intros (-> & -> & -> & -> & -> & Hc). destruct self'; simpl in *.
    by rewrite Hc.
Qed.

Lemma read_fields_inl (self : MinioAPI Client) cfg k :
  k ∈ required_fields → cfg !! k = None →
  ∃ k', k' ∈ required_fields ∧ cfg !! k' = None ∧
        read_fields self cfg = inl (KeyError k').
Proof.
  intros Hk Hnone. unfold read_fields, getitem.
  destruct (cfg !! "ACCESS_KEY") eqn:Ha.
  2: { exists "ACCESS_KEY". field_missing. }
  destruct (cfg !! "SECRET_KEY") eqn:Hs.
  2: { exists "SECRET_KEY". field_missing. }
  destruct (cfg !! "CA_CERTS") eqn:Hc.
  2: { exists "CA_CERTS". field_missing. }
  destruct (cfg !! "URL_PORT") eqn:Hu.
  2: { exists "URL_PORT". field_missing. }
  destruct (cfg !! "BUCKET") eqn:Hb.
  2: { exists "BUCKET". field_missing. }
  exfalso. unfold required_fields in Hk.
  repeat (apply elem_of_cons in Hk as [-> | Hk]; [congruence |]).
  by apply elem_of_nil in Hk.
Qed.

End Configuration.

Section ConfigurationClaims.

Context {Client Server : Type} {dotenv : DotEnv}.

(** C2.  Whenever one of the five required fields is absent from the dict
    after both stages (the file parsed, the secondary file loaded, the two
    environment values overlaid), [_process_env] raises the
    missing-configuration error, Python's [KeyError]; the key it names is
    [MINIO_ENV] or a required field. *)
Theorem process_env_missing_field (self : MinioAPI Client) fname
    (w : World Server) d env' k :
  dotenv_values fname = inr d →
  (∀ p, d !! "MINIO_ENV" = Some p → load_dotenv p (environ w) = inr env') →
  k ∈ required_fields →
  resolved_config d env' !! k = None →
  ∃ k' w',
    k' ∈ "MINIO_ENV" :: required_fields ∧
    _process_env self fname w = (w', inl (MissingConfiguration k')).
Proof.
  intros Hd Hload Hk Hnone.
  destruct (d !! "MINIO_ENV") as [p |] eqn:Hp.
  - destruct (read_fields_inl self _ k Hk Hnone) as (k' & Hk' & _ & Hread).
    exists k', (mkWorld env' (server w) (stdout w)). split.
    + apply elem_of_cons. by right.
    + rewrite (_process_env_loaded self fname w d p env') by auto.
      by rewrite Hread.
  - exists "MINIO_ENV", w. split.
    + apply elem_of_cons. by left.
    + by apply _process_env_no_MINIO_ENV with d.
Qed.

(** C3 (as amended).  After a successful [_process_env], a non-empty value
    of [ACCESS_KEY], respectively [SECRET_KEY], in the process environment
    that [os.getenv] reads (the environment left by [load_dotenv]) is the
    resolved access key, respectively secret key, whatever the file holds. *)
Theorem env_nonempty_takes_precedence (self self' : MinioAPI Client) fname
    (w w' : World Server) :
  _process_env self fname w = (w', inr self') →
  (∀ v, environ w' !! "ACCESS_KEY" = Some v → v ≠ "" →
        _ACCESS_KEY self' = Some v) ∧
  (∀ v, environ w' !! "SECRET_KEY" = Some v → v ≠ "" →
        _SECRET_KEY self' = Some v).
Proof.
  intros Hrun.
  destruct (_process_env_inr _ _ _ _ _ Hrun) as (d & p & _ & _ & _ & _ & Hread).
  apply read_fields_inr in Hread as (Ha & Hs & _).
  rewrite resolved_ACCESS_KEY in Ha. rewrite resolved_SECRET_KEY in Hs.
  split; intros v Hv Hne.
  - rewrite Hv, (truthy_Some_nonempty v Hne) in Ha. congruence.
  - rewrite Hv, (truthy_Some_nonempty v Hne) in Hs. congruence.
Qed.

(** C4 (as amended).  When the file holds the five required keys and the
    [MINIO_ENV] key, and neither [ACCESS_KEY] nor [SECRET_KEY] has a
    non-empty value in the environment left by [load_dotenv],
    [_process_env] succeeds and the five resolved fields are the file's
    values. *)
Theorem file_values_resolved (self : MinioAPI Client) fname (w : World Server)
    d p env' a s c u b :
  dotenv_values fname = inr d →
  d !! "MINIO_ENV" = Some p →
  load_dotenv p (environ w) = inr env' →
  truthy (env' !! "ACCESS_KEY") = false →
  truthy (env' !! "SECRET_KEY") = false →
  d !! "ACCESS_KEY" = Some a →
  d !! "SECRET_KEY" = Some s →
  d !! "CA_CERTS" = Some c →
  d !! "URL_PORT" = Some u →
  d !! "BUCKET" = Some b →
  _process_env self fname w =
  (mkWorld env' (server w) (stdout w),
   inr (mkMinioAPI a s c u b (_client self))).
Proof.
  intros Hd Hp Hl Hta Hts Ha Hs Hc Hu Hb.
  rewrite (_process_env_loaded self fname w d p env') by assumption.
  f_equal. apply read_fields_inr. simpl.
  rewrite resolved_ACCESS_KEY, resolved_SECRET_KEY, Hta, Hts.
  rewrite !resolved_other by discriminate. auto 10.
Qed.

(** C10.  After a successful [_process_env] on a file parsed as [d]: an
    [ACCESS_KEY] or [SECRET_KEY] set to the empty string in the environment
    leaves the file's value in place, and a resolved key differs from the
    file's entry only when the environment holds a non-empty value, which
    is then the resolved one. *)
Theorem blank_env_value_not_overlaid (self self' : MinioAPI Client) fname
    (w w' : World Server) d :
  dotenv_values fname = inr d →
  _process_env self fname w = (w', inr self') →
  (environ w' !! "ACCESS_KEY" = Some "" →
   d !! "ACCESS_KEY" = Some (_ACCESS_KEY self')) ∧
  (environ w' !! "SECRET_KEY" = Some "" →
   d !! "SECRET_KEY" = Some (_SECRET_KEY self')) ∧
  (d !! "ACCESS_KEY" ≠ Some (_ACCESS_KEY self') →
   ∃ v, v ≠ "" ∧ environ w' !! "ACCESS_KEY" = Some v ∧
        _ACCESS_KEY self' = Some v) ∧
  (d !! "SECRET_KEY" ≠ Some (_SECRET_KEY self') →
   ∃ v, v ≠ "" ∧ environ w' !! "SECRET_KEY" = Some v ∧
        _SECRET_KEY self' = Some v).
Proof.
  intros Hd Hrun.
  destruct (_process_env_inr _ _ _ _ _ Hrun)
    as (d' & p & Hd' & _ & _ & _ & Hread).
  assert (d' = d) as -> by congruence.
  apply read_fields_inr in Hread as (Ha & Hs & _).
  rewrite resolved_ACCESS_KEY in Ha. rewrite resolved_SECRET_KEY in Hs.
  repeat split.
  - intros Hblank. by rewrite Hblank in Ha.
  - intros Hblank. by rewrite Hblank in Hs.
  - intros Hdiff.
    destruct (environ w' !! "ACCESS_KEY") as [v |] eqn:Hv; [| done].
    simpl in Ha. destruct (String.eqb_spec v ""); simpl in Ha; [done |].
    exists v. split; [assumption |]. split; [reflexivity | congruence].
  - intros Hdiff.
    destruct (environ w' !! "SECRET_KEY") as [v |] eqn:Hv; [| done].
    simpl in Hs. destruct (String.eqb_spec v ""); simpl in Hs; [done |].
    exists v. split; [assumption |]. split; [reflexivity | congruence].
Qed.

End ConfigurationClaims.

(** *** Configuration resolution on the example files *)

Lemma process_env_missing_field_witness :
  ∃ k' w',
    k' ∈ "MINIO_ENV" :: required_fields ∧
    _process_env (dotenv := FilesDotEnv files_no_bucket) api_blank
      "minio.env" world0 = (w', inl (MissingConfiguration k')).
Proof.
  eapply (process_env_missing_field (dotenv := FilesDotEnv files_no_bucket)
            api_blank "minio.env" world0 _ ∅ "BUCKET").
  - reflexivity.
  - intros p Hp. vm_compute in Hp. injection Hp as <-. reflexivity.
  - unfold required_fields. repeat constructor.
  - vm_compute. reflexivity.
Defined.

(** C3, counterexample.  [ACCESS_KEY] is set in the process environment, to
    the empty string, before and after the secondary file is loaded; the
    resolved access key is the file's ["filekey"], not the environment's
    value. *)
Lemma blank_ACCESS_KEY_keeps_file_value :
  environ world_blank_key !! "ACCESS_KEY" = Some "" ∧
  _process_env (dotenv := FilesDotEnv files_plain) api_blank "minio.env"
    world_blank_key =
  (world_blank_key,
   inr (mkMinioAPI (Some "filekey") (Some "filesecret")
          (Some "/etc/ssl/ca.pem") (Some "minio:9000") (Some "data") None)).
Proof. split; vm_compute; reflexivity. Qed.

Lemma env_nonempty_takes_precedence_witness :
  (∀ v, environ world_override !! "ACCESS_KEY" = Some v → v ≠ "" →
        _ACCESS_KEY api_override = Some v) ∧
  (∀ v, environ world_override !! "SECRET_KEY" = Some v → v ≠ "" →
        _SECRET_KEY api_override = Some v).
Proof.
  apply (env_nonempty_takes_precedence (dotenv := FilesDotEnv files_override)
           api_blank api_override "minio.env" world0 world_override).
  vm_compute. reflexivity.
Defined.

(** C4, counterexample.  The file holds the five required keys and nothing
    overrides them, but it has no [MINIO_ENV] line: line 130 raises
    [KeyError] and no configuration is resolved. *)
Lemma five_keys_without_MINIO_ENV_fail :
  (∀ k, k ∈ required_fields →
        is_Some (list_to_map (M := gmap string (option string)) main_lines !! k)) ∧
  dotenv_values (DotEnv := FilesDotEnv files_no_indirection) "minio.env" =
    inr (list_to_map main_lines) ∧
  _process_env (dotenv := FilesDotEnv files_no_indirection) api_blank
    "minio.env" world0 = (world0, inl (KeyError "MINIO_ENV")).
Proof.
  split; [| split; vm_compute; reflexivity].
  intros k Hk. unfold required_fields in Hk.
  repeat (apply elem_of_cons in Hk as [-> | Hk]; [vm_compute; eauto |]).
  by apply elem_of_nil in Hk.
Qed.

Lemma file_values_resolved_witness :
  _process_env (dotenv := FilesDotEnv files_plain) api_blank "minio.env"
    world0 =
  (world0,
   inr (mkMinioAPI (Some "filekey") (Some "filesecret")
          (Some "/etc/ssl/ca.pem") (Some "minio:9000") (Some "data") None)).
Proof.
  apply (file_values_resolved (dotenv := FilesDotEnv files_plain) api_blank
           "minio.env" world0
           (list_to_map (("MINIO_ENV", Some "secret.env") :: main_lines))
           (Some "secret.env") ∅);
    vm_compute; reflexivity.
Defined.

Lemma blank_env_value_not_overlaid_witness :
  list_to_map (M := gmap string (option string))
    (("MINIO_ENV", Some "secret.env") :: main_lines) !! "ACCESS_KEY" =
  Some (Some "filekey").
Proof.
  refine (proj1 (blank_env_value_not_overlaid
                   (dotenv := FilesDotEnv files_plain) api_blank
                   (mkMinioAPI (Some "filekey") (Some "filesecret")
                      (Some "/etc/ssl/ca.pem") (Some "minio:9000")
                      (Some "data") None)
                   "minio.env" world_blank_key world_blank_key _ _ _) _);
    vm_compute; reflexivity.
Defined.

(** ** The five operations *)

Lemma fold_left_object_names (objs : list Object) (acc : list string) :
  fold_left (fun obj_list obj => (obj_list ++ [object_name obj])%list) objs acc
  = (acc ++ List.map object_name objs)%list.
Proof.
  revert acc. induction objs as [| obj objs IH]; intros acc; simpl.
  - by rewrite app_nil_r.
  - rewrite IH, <- app_assoc. reflexivity.
Qed.

Lemma world_eta {Server} (w : World Server) :
  mkWorld (environ w) (server w) (stdout w) = w.
Proof. by destruct w. Qed.

Section OperationLemmas.

Context {Client Server DataFrame : Type} {sdk : MinioSDK Client Server}
        {pandas : Pandas DataFrame}.

Implicit Types (self : MinioAPI Client) (c : Client) (w : World Server).

(** Each method is the operation on the bucket its guard selects;
    [remove_obj] has no guard and works on its argument. *)
Lemma print_list_objects_run self c b prefix recursive w :
  _client self = Some c →
  print_list_objects self b prefix recursive w =
  list_in c (default_bucket self b) prefix recursive w.
Proof.
  intros Hc. unfold print_list_objects, list_in, bind, client_method, on_server, ret.
  rewrite Hc. simpl.
  destruct (list_objects _ _ _ _ _) as [s' [e | objs]]; [reflexivity |].
  by rewrite fold_left_object_names.
Qed.

Lemma load_obj_run self c key b w :
  _client self = Some c →
  load_obj self key b w = read_in c (default_bucket self b) key w.
Proof.
  intros Hc. unfold load_obj, read_in, bind, client_method, on_server, ret.
  rewrite Hc. simpl.
  by destruct (get_object _ _ _ _) as [s' [e | obj]].
Qed.

Lemma save_obj_run self c (df : DataFrame) key sep b w :
  _client self = Some c →
  save_obj self df key sep b w = write_in c (default_bucket self b) df key sep w.
Proof.
  intros Hc.
  unfold save_obj, write_in, bind, client_method, on_server, lift, ret.
  simpl. destruct (to_csv _ _) as [e | text]; [reflexivity |].
  destruct (encode _ _) as [e | csv_bytes]; [reflexivity |].
  rewrite Hc. simpl.
  by destruct (put_object _ _ _ _ _ _ _) as [s' [e | r]].
Qed.

Lemma remove_obj_run self c key b w :
  _client self = Some c →
  remove_obj self key b w = delete_in c b key w.
Proof.
  intros Hc.
  unfold remove_obj, delete_in, bind, client_method, on_server, print, ret.
  rewrite Hc. simpl.
  by destruct (remove_object _ _ _ _) as [s' [e | r]].
Qed.

Lemma copy_obj_run self c skey dkey sb db w :
  _client self = Some c →
  copy_obj self skey dkey sb db w =
  copy_in c (default_bucket self sb) (default_bucket self db) skey dkey w.
Proof.
  intros Hc. unfold copy_obj, copy_in, bind, client_method, on_server, ret.
  rewrite Hc. simpl.
  by destruct (copy_object _ _ _ _ _) as [s' [e | r]].
Qed.

(** X7.  With a default bucket configured, list, read, write and copy work
    on it whatever bucket the caller passes. *)
Lemma default_bucket_overrides_argument self c d (df : DataFrame) w :
  _client self = Some c →
  _bucket self = Some d →
  (∀ b prefix recursive,
     print_list_objects self b prefix recursive w =
     list_in c (Some d) prefix recursive w) ∧
  (∀ b key, load_obj self key b w = read_in c (Some d) key w) ∧
  (∀ b key sep, save_obj self df key sep b w = write_in c (Some d) df key sep w) ∧
  (∀ sb db skey dkey,
     copy_obj self skey dkey sb db w = copy_in c (Some d) (Some d) skey dkey w).
Proof.
  intros Hc Hd.
  assert (∀ b, default_bucket self b = Some d) as Hdef.
  { intros b. unfold default_bucket. by rewrite Hd. }
  repeat split; intros.
  - by rewrite (print_list_objects_run self c), Hdef.
  - by rewrite (load_obj_run self c), Hdef.
  - by rewrite (save_obj_run self c), Hdef.
  - by rewrite (copy_obj_run self c), !Hdef.
Qed.

End OperationLemmas.

Section OperationClaims.

Context {Client Server DataFrame : Type} {dotenv : DotEnv}
        {sdk : MinioSDK Client Server} {pandas : Pandas DataFrame}.

Implicit Types (self : MinioAPI Client) (c : Client) (w : World Server).

(** C5.  When the SDK's listing of the selected bucket yields [objs],
    [print_list_objects] returns the object names of [objs] in the same
    order; for an empty listing it returns the empty list and raises
    nothing. *)
Theorem print_list_objects_keeps_order self c b prefix recursive w s' objs :
  _client self = Some c →
  list_objects c (default_bucket self b) recursive prefix (server w) =
    (s', inr objs) →
  print_list_objects self b prefix recursive w =
    (mkWorld (environ w) s' (stdout w), inr (List.map object_name objs)) ∧
  (objs = [] →
   print_list_objects self b prefix recursive w =
     (mkWorld (environ w) s' (stdout w), inr [])).
Proof.
  intros Hc Hlist.
  assert (print_list_objects self b prefix recursive w =
          (mkWorld (environ w) s' (stdout w), inr (List.map object_name objs)))
    as Hrun.
  { rewrite (print_list_objects_run self c) by assumption.
    unfold list_in. by rewrite Hlist. }
  split; [assumption |]. intros ->. exact Hrun.
Qed.

(** C6.  [save_obj] serializes with the given separator, the header row of
    [to_csv]'s default and [index=False], encodes the text as UTF-8, and
    makes one [put_object] call with these bytes, their count as length and
    content type [application/csv]; when the three calls succeed the store
    is the one [put_object] left and the method returns [None]. *)
Theorem save_obj_uploads_csv self c (df : DataFrame) key sep b w
    text csv_bytes s' r :
  _client self = Some c →
  to_csv df {| kw_sep := sep; kw_header := true; kw_index := false |} =
    inr text →
  encode text "utf-8" = inr csv_bytes →
  put_object c (default_bucket self b) key csv_bytes (List.length csv_bytes)
    "application/csv" (server w) = (s', inr r) →
  save_obj self df key sep b w =
    (mkWorld (environ w) s' (stdout w), inr tt).
Proof.
  intros Hc Hcsv Henc Hput.
  rewrite (save_obj_run self c) by assumption.
  unfold write_in. by rewrite Hcsv, Henc, Hput.
Qed.

(** C7 (as amended).  [remove_obj] has no existence check of its own: it
    makes one [remove_object] call for the key.  When that call returns, as
    it does for a key that does not exist, the method prints one
    confirmation line with the bucket of the call and the key, and returns
    [None]; when the call raises, the exception propagates and nothing is
    printed.  The bucket of the call is the bucket argument for an object
    without default bucket; for an object with one, the statement does not
    say which bucket it is. *)
Theorem remove_obj_confirms_after_removal self c key b w :
  _client self = Some c →
  ∃ bucket,
    (_bucket self = None → bucket = b) ∧
    remove_obj self key b w =
      match remove_object c bucket key (server w) with
      | (s', inr _) =>
          (mkWorld (environ w) s'
             (stdout w ++ [removed_message bucket key])%list, inr tt)
      | (s', inl e) => (mkWorld (environ w) s' (stdout w), inl e)
      end.
Proof.
  intros Hc. exists b. split; [done |].
  rewrite (remove_obj_run self c) by assumption.
  unfold delete_in. by destruct (remove_object _ _ _ _) as [s' [e | r]].
Qed.

(** C9.  The constructor has no bucket argument ([InitArgs]); an object
    constructed without an environment file has [_bucket = None], holds a
    client, and each of its five methods is the operation on the bucket
    (for copy, the two buckets) the caller passes. *)
Theorem no_env_file_no_default_bucket (args : InitArgs) w w' self :
  fname_minio_env args = None →
  __init__ args w = (w', inr self) →
  w' = w ∧
  _bucket self = None ∧
  ∃ c, _client self = Some c ∧
    ∀ w1,
      (∀ b prefix recursive,
         print_list_objects self b prefix recursive w1 =
         list_in c b prefix recursive w1) ∧
      (∀ b key, load_obj self key b w1 = read_in c b key w1) ∧
      (∀ b (df : DataFrame) key sep,
         save_obj self df key sep b w1 = write_in c b df key sep w1) ∧
      (∀ b key, remove_obj self key b w1 = delete_in c b key w1) ∧
      (∀ sb db skey dkey,
         copy_obj self skey dkey sb db w1 = copy_in c sb db skey dkey w1).
Proof.
  intros Hf Hinit.
  unfold __init__ in Hinit. rewrite Hf in Hinit.
  unfold bind, ret, _connect, lift in Hinit. simpl in Hinit.
  destruct (Minio _ _ _ _ _) as [e | c]; [discriminate |].
  injection Hinit as <- <-. simpl.
  split; [reflexivity |]. split; [reflexivity |].
  exists c. split; [reflexivity |]. intros w1.
  repeat split; intros.
  - by rewrite (print_list_objects_run _ c).
  - by rewrite (load_obj_run _ c).
  - by rewrite (save_obj_run _ c).
  - by rewrite (remove_obj_run _ c).
  - by rewrite (copy_obj_run _ c).
Qed.

End OperationClaims.

(** *** The operations on the in-memory store *)

(** C1.  [api_data] has default bucket [data]; [remove_obj] called with
    bucket [other] removes the object from [other], leaves the one in
    [data], and prints [other]: the default bucket is not used. *)
Theorem remove_obj_skips_default_bucket :
  _bucket api_data = Some "data" ∧
  remove_obj (sdk := MemSDK) api_data "a.csv" (Some "other") world0 =
    (mkWorld ∅ [("data", [("a.csv", csv_object)]); ("other", [])]
       ["Object removed. Bucket: other, Object: a.csv"],
     inr tt).
Proof. split; vm_compute; reflexivity. Qed.

Lemma print_list_objects_keeps_order_witness :
  print_list_objects (sdk := MemSDK) api_data (Some "other") (Some "zzz/") true
    world0 = (world0, inr []).
Proof.
  apply (proj2 (print_list_objects_keeps_order (sdk := MemSDK) api_data client0
                  (Some "other") (Some "zzz/") true world0 store0 []
                  eq_refl eq_refl) eq_refl).
Defined.

Lemma save_obj_uploads_csv_witness :
  save_obj (sdk := MemSDK) (pandas := FramePandas) api_data frame0 "a/b.csv"
    "," None world0 = (mkWorld ∅ store_written [], inr tt).
Proof.
  apply (save_obj_uploads_csv (sdk := MemSDK) (pandas := FramePandas)
           api_data client0 frame0 "a/b.csv" "," None world0
           frame0_csv (list_byte_of_string frame0_csv) store_written
           (mkObjectWriteResult (Some "data") "a/b.csv" None));
    vm_compute; reflexivity.
Defined.

(** C7, counterexample.  The bucket named in the call does not exist, the
    SDK raises, and [remove_obj] raises with nothing printed: this
    invocation emits no confirmation record. *)
Lemma remove_obj_failed_call_prints_nothing :
  remove_obj (sdk := MemSDK) api_nobucket "a.csv" (Some "nosuch") world0 =
    (world0, inl (S3Error "NoSuchBucket")) ∧
  stdout world0 = [].
Proof. split; vm_compute; reflexivity. Qed.

(** The key does not exist in the bucket: the call returns and the line is
    printed. *)
Lemma remove_obj_confirms_after_removal_witness :
  ∃ bucket,
    (_bucket api_nobucket = None → bucket = Some "data") ∧
    remove_obj (sdk := MemSDK) api_nobucket "missing.csv" (Some "data")
      world0 =
      match mem_remove_object client0 bucket "missing.csv" store0 with
      | (s', inr _) =>
          (mkWorld ∅ s' [removed_message bucket "missing.csv"], inr tt)
      | (s', inl e) => (mkWorld ∅ s' [], inl e)
      end.
Proof.
  exact (remove_obj_confirms_after_removal (sdk := MemSDK) api_nobucket client0
           "missing.csv" (Some "data") world0 eq_refl).
Defined.

(** C8.  On the backend of the specification: when no object exists under
    the source key (in the bucket the copy reads from), [copy_obj] fails
    with [ObjectNotFound] and the state after it is the state before it, so
    no destination object is created. *)
Theorem copy_obj_missing_source (self : MinioAPI SpecClient) c skey dkey sb db
    (w : World SpecStore) :
  _client self = Some c →
  spec_lookup (server w) (default_bucket self sb, skey) = None →
  copy_obj (sdk := SpecSDK) self skey dkey sb db w = (w, inl ObjectNotFound) ∧
  spec_lookup (server (fst (copy_obj (sdk := SpecSDK) self skey dkey sb db w)))
    (default_bucket self db, dkey) =
  spec_lookup (server w) (default_bucket self db, dkey).
Proof.
  intros Hc Habsent.
  assert (copy_obj (sdk := SpecSDK) self skey dkey sb db w =
          (w, inl ObjectNotFound)) as Hrun.
  { rewrite (copy_obj_run self c) by assumption.
    unfold copy_in. simpl. unfold spec_copy_object. simpl.
    rewrite Habsent. by rewrite world_eta. }
  split; [assumption |]. by rewrite Hrun.
Qed.

Lemma copy_obj_missing_source_witness :
  copy_obj (sdk := SpecSDK) spec_api "missing.csv" "copy.csv" (Some "other")
    None spec_world = (spec_world, inl ObjectNotFound) ∧
  spec_lookup
    (server (fst (copy_obj (sdk := SpecSDK) spec_api "missing.csv" "copy.csv"
                    (Some "other") None spec_world)))
    (Some "data", "copy.csv") = None.
Proof.
  apply (copy_obj_missing_source spec_api spec_client "missing.csv" "copy.csv"
           (Some "other") None spec_world);
    vm_compute; reflexivity.
Defined.

Lemma no_env_file_no_default_bucket_witness : _bucket api_fresh = None.
Proof.
  exact (proj1 (proj2 (no_env_file_no_default_bucket
                         (dotenv := FilesDotEnv []) (sdk := MemSDK)
                         (pandas := FramePandas) InitArgs_defaults
                         world0 world0 api_fresh eq_refl eq_refl))).
Defined.

(** ** The constructor *)

Section Constructor.

Context {Client Server : Type} {dotenv : DotEnv} {sdk : MinioSDK Client Server}.

Implicit Types (self : MinioAPI Client) (w : World Server).

(** The object [__init__] starts from. *)
Local Abbreviation blank args :=
  (mkMinioAPI (Client := Client) (ACCESS_KEY args) (SECRET_KEY args)
     (ca_certs args) (url_port args) None None).

(** [_process_env] by cases on the three library calls. *)
Lemma _process_env_cases self fname w :
  _process_env self fname w =
  match dotenv_values fname with
  | inl e => (w, inl e)
  | inr d =>
      match d !! "MINIO_ENV" with
      | None => (w, inl (KeyError "MINIO_ENV"))
      | Some p =>
          match load_dotenv p (environ w) with
          | inl e => (w, inl e)
          | inr env' =>
              (mkWorld env' (server w) (stdout w),
               read_fields self (resolved_config d env'))
          end
      end
  end.
Proof.
  destruct (dotenv_values fname) as [e | d] eqn:Hd.
  { unfold _process_env, bind, lift. by rewrite Hd. }
  destruct (d !! "MINIO_ENV") as [p |] eqn:Hp.
  2: { by apply _process_env_no_MINIO_ENV with d. }
  destruct (load_dotenv p (environ w)) as [e | env'] eqn:Hl.
  2: { by apply _process_env_loaded with p. }
  unfold _process_env, bind, lift, on_environ.
  rewrite Hd. unfold getitem at 1. by rewrite Hp, Hl.
Qed.

(** Of the object it is called on, [_process_env] keeps the client only. *)
Lemma _process_env_client_only self1 self2 fname w :
  _client self1 = _client self2 →
  _process_env self1 fname w = _process_env self2 fname w.
Proof.
  intros Hc. rewrite !_process_env_cases. unfold read_fields. by rewrite Hc.
Qed.

Lemma _process_env_frame self fname w :
  server (fst (_process_env self fname w)) = server w ∧
  stdout (fst (_process_env self fname w)) = stdout w.
Proof.
  rewrite _process_env_cases.
  destruct (dotenv_values fname) as [e | d]; [done |].
  destruct (d !! "MINIO_ENV") as [p |]; [| done].
  by destruct (load_dotenv p (environ w)).
Qed.

Lemma _connect_cases self w :
  _connect self w =
  match Minio (_url_port self) (_ACCESS_KEY self) (_SECRET_KEY self) true
          (mkPoolManager "CERT_REQUIRED" (_ca_certs self)) with
  | inr c =>
      (w, inr (mkMinioAPI (_ACCESS_KEY self) (_SECRET_KEY self)
                 (_ca_certs self) (_url_port self) (_bucket self) (Some c)))
  | inl e => (w, inl e)
  end.
Proof.
  unfold _connect, bind, lift, ret. by destruct (Minio _ _ _ _ _).
Qed.

Lemma __init___cases (args : InitArgs) w :
  __init__ args w =
  match fname_minio_env args with
  | None => _connect (blank args) w
  | Some fname =>
      match _process_env (blank args) fname w with
      | (w1, inr self) => _connect self w1
      | (w1, inl e) => (w1, inl e)
      end
  end.
Proof.
  unfold __init__, bind, ret. by destruct (fname_minio_env args).
Qed.

(** A successful construction with an environment file went through a
    successful [_process_env] and a successful [_connect]. *)
Lemma __init___env_inr (args : InitArgs) fname w w' self :
  fname_minio_env args = Some fname →
  __init__ args w = (w', inr self) →
  ∃ self0,
    _process_env (blank args) fname w = (w', inr self0) ∧
    _connect self0 w' = (w', inr self).
Proof.
  intros Hf Hinit. rewrite __init___cases, Hf in Hinit.
  destruct (_process_env _ fname w) as [w1 [e | self0]] eqn:Hpe;
    [discriminate |].
  exists self0.
  assert (w1 = w') as ->.
  { rewrite _connect_cases in Hinit.
    destruct (Minio _ _ _ _ _); congruence. }
  done.
Qed.

(** X1.  With an environment file, the explicit [ACCESS_KEY], [SECRET_KEY],
    [ca_certs] and [url_port] arguments play no part: two constructor calls
    naming the same file behave the same whatever else they pass. *)
Theorem init_env_file_discards_arguments (args1 args2 : InitArgs) fname w :
  fname_minio_env args1 = Some fname →
  fname_minio_env args2 = Some fname →
  __init__ args1 w = __init__ args2 w.
Proof.
  intros H1 H2. rewrite !__init___cases, H1, H2.
  by rewrite (_process_env_client_only (blank args1) (blank args2)).
Qed.

(** X2.  Every constructed object holds a client, and that client is the
    one the SDK builds from the object's own endpoint and keys, with
    [secure=True] and a pool manager that requires certificates and uses
    the object's CA bundle. *)
Theorem init_client_matches_fields (args : InitArgs) w w' self :
  __init__ args w = (w', inr self) →
  ∃ c,
    _client self = Some c ∧
    Minio (_url_port self) (_ACCESS_KEY self) (_SECRET_KEY self) true
      (mkPoolManager "CERT_REQUIRED" (_ca_certs self)) = inr c.
Proof.
  intros Hinit. rewrite __init___cases in Hinit.
  assert (∃ self0 w0, _connect self0 w0 = (w', inr self)) as (self0 & w0 & Hc).
  { destruct (fname_minio_env args) as [fname |]; [| eauto].
    destruct (_process_env _ fname w) as [w1 [e | self0]]; [discriminate |].
    eauto. }
  rewrite _connect_cases in Hc.
  destruct (Minio _ _ _ _ _) as [e | c] eqn:Hm; [discriminate |].
  injection Hc as _ <-. exists c. simpl. auto.
Qed.

(** X3.  The constructor, whether it returns or raises, leaves the object
    store and the standard output as they were; without an environment file
    it leaves the process environment as well. *)
Theorem init_frame (args : InitArgs) w :
  server (fst (__init__ args w)) = server w ∧
  stdout (fst (__init__ args w)) = stdout w ∧
  (fname_minio_env args = None → fst (__init__ args w) = w).
Proof.
  rewrite __init___cases.
  assert (∀ self0 w0, fst (_connect self0 w0) = w0) as Hconn.
  { intros self0 w0. rewrite _connect_cases. by destruct (Minio _ _ _ _ _). }
  destruct (fname_minio_env args) as [fname |].
  - destruct (_process_env_frame (blank args) fname w) as [Hs Ho].
    destruct (_process_env _ fname w) as [w1 [e | self0]]; simpl in *.
    + done.
    + rewrite Hconn. done.
  - rewrite Hconn. done.
Qed.

(** X4.  Only the two keys are overlaid.  After a successful construction
    from a file parsed as [d], the CA bundle, the endpoint and the default
    bucket are [d]'s entries, whatever the process environment holds under
    those names. *)
Theorem init_file_only_fields (args : InitArgs) fname w w' self d :
  fname_minio_env args = Some fname →
  dotenv_values fname = inr d →
  __init__ args w = (w', inr self) →
  d !! "CA_CERTS" = Some (_ca_certs self) ∧
  d !! "URL_PORT" = Some (_url_port self) ∧
  d !! "BUCKET" = Some (_bucket self).
Proof.
  intros Hf Hd Hinit.
  destruct (__init___env_inr args fname w w' self Hf Hinit)
    as (self0 & Hpe & Hconn).
  destruct (_process_env_inr _ _ _ _ _ Hpe)
    as (d' & p & Hd' & _ & _ & _ & Hread).
  assert (d' = d) as -> by congruence.
  apply read_fields_inr in Hread as (_ & _ & Hca & Hurl & Hb & _).
  rewrite resolved_other in Hca, Hurl, Hb by discriminate.
  rewrite _connect_cases in Hconn.
  destruct (Minio _ _ _ _ _); [discriminate |].
  injection Hconn as <-. simpl. auto.
Qed.

(** X5.  A constructor call naming a file without the [MINIO_ENV] key raises
    [KeyError('MINIO_ENV')] with the process environment, the store and the
    output untouched, whatever other keys the file holds. *)
Theorem init_without_MINIO_ENV_raises (args : InitArgs) fname w d :
  fname_minio_env args = Some fname →
  dotenv_values fname = inr d →
  d !! "MINIO_ENV" = None →
  __init__ args w = (w, inl (KeyError "MINIO_ENV")).
Proof.
  intros Hf Hd Hp. rewrite __init___cases, Hf.
  by rewrite (_process_env_no_MINIO_ENV _ fname w d).
Qed.

(** X6.  Without an environment file the object's four connection fields
    are the constructor's arguments. *)
Theorem init_without_env_file_keeps_arguments (args : InitArgs) w w' self :
  fname_minio_env args = None →
  __init__ args w = (w', inr self) →
  _ACCESS_KEY self = ACCESS_KEY args ∧
  _SECRET_KEY self = SECRET_KEY args ∧
  _ca_certs self = ca_certs args ∧
  _url_port self = url_port args.
Proof.
  intros Hf Hinit. rewrite __init___cases, Hf, _connect_cases in Hinit.
  simpl in Hinit. destruct (Minio _ _ _ _ _); [discriminate |].
  injection Hinit as _ <-. simpl. auto.
Qed.

End Constructor.

(** ** Further properties of the operations *)

Section OperationProperties.

Context {Client Server DataFrame : Type} {sdk : MinioSDK Client Server}
        {pandas : Pandas DataFrame}.

Implicit Types (self : MinioAPI Client) (c : Client) (w : World Server).

(** Unfolds a method down to the SDK call. *)
Ltac unfold_method :=
  unfold print_list_objects, load_obj, save_obj, remove_obj, copy_obj,
    bind, client_method, on_server, lift, print, ret, raise.

(** X8.  [remove_obj] never reads the default bucket: on objects holding
    the same client it behaves the same, whatever their [_bucket]. *)
Theorem remove_obj_never_reads_default_bucket self self' key b w :
  _client self = _client self' →
  remove_obj self key b w = remove_obj self' key b w.
Proof.
  intros Hc. unfold remove_obj, client_method. by rewrite Hc.
Qed.

(** X9.  No operation touches the process environment.  List, read, write
    and copy print nothing; [remove_obj] prints its one line exactly when
    it returns, and nothing when it raises. *)
Theorem operations_frame self (df : DataFrame) key key' sep b b' prefix
    recursive w :
  (environ (fst (print_list_objects self b prefix recursive w)) = environ w ∧
   stdout (fst (print_list_objects self b prefix recursive w)) = stdout w) ∧
  (environ (fst (load_obj self key b w)) = environ w ∧
   stdout (fst (load_obj self key b w)) = stdout w) ∧
  (environ (fst (save_obj self df key sep b w)) = environ w ∧
   stdout (fst (save_obj self df key sep b w)) = stdout w) ∧
  (environ (fst (copy_obj self key key' b b' w)) = environ w ∧
   stdout (fst (copy_obj self key key' b b' w)) = stdout w) ∧
  (environ (fst (remove_obj self key b w)) = environ w ∧
   stdout (fst (remove_obj self key b w)) =
     match snd (remove_obj self key b w) with
     | inr _ => (stdout w ++ [removed_message b key])%list
     | inl _ => stdout w
     end).
Proof.
  repeat split; unfold_method; simpl.
  1, 2: destruct (_client self) as [c |]; simpl; [| done];
        by destruct (list_objects _ _ _ _ _) as [s' [e | objs]].
  1, 2: destruct (_client self) as [c |]; simpl; [| done];
        by destruct (get_object _ _ _ _) as [s' [e | obj]].
  1, 2: destruct (to_csv _ _) as [e | text]; [done |];
        destruct (encode _ _) as [e | csv_bytes]; [done |];
        destruct (_client self) as [c |]; simpl; [| done];
        by destruct (put_object _ _ _ _ _ _ _) as [s' [e | r]].
  1, 2: destruct (_client self) as [c |]; simpl; [| done];
        by destruct (copy_object _ _ _ _ _) as [s' [e | r]].
  1, 2: destruct (_client self) as [c |]; simpl; [| done];
        by destruct (remove_object _ _ _ _) as [s' [e | r]].
Qed.

(** X10.  When serialization fails, in [to_csv] or in [encode], [save_obj]
    raises that error and makes no SDK call: the store is untouched.  This
    holds even for an object without client, since the text is produced
    before the client is looked up. *)
Theorem save_obj_serialization_failure self (df : DataFrame) key sep b w e :
  to_csv df {| kw_sep := sep; kw_header := true; kw_index := false |} = inl e ∨
  (∃ text,
     to_csv df {| kw_sep := sep; kw_header := true; kw_index := false |} =
       inr text ∧
     encode text "utf-8" = inl e) →
  save_obj self df key sep b w = (w, inl e).
Proof.
  intros [Hcsv | (text & Hcsv & Henc)]; unfold_method; simpl.
  - by rewrite Hcsv.
  - by rewrite Hcsv, Henc.
Qed.

(** X11.  An exception of the SDK call leaves list, read, write and copy
    unchanged: same exception, the store as the SDK left it, nothing
    printed, no second call. *)
Theorem sdk_errors_propagate self c (df : DataFrame) key key' sep b b' prefix
    recursive w s' e :
  _client self = Some c →
  (list_objects c (default_bucket self b) recursive prefix (server w) =
     (s', inl e) →
   print_list_objects self b prefix recursive w =
     (mkWorld (environ w) s' (stdout w), inl e)) ∧
  (get_object c (default_bucket self b) key (server w) = (s', inl e) →
   load_obj self key b w = (mkWorld (environ w) s' (stdout w), inl e)) ∧
  (∀ text csv_bytes,
     to_csv df {| kw_sep := sep; kw_header := true; kw_index := false |} =
       inr text →
     encode text "utf-8" = inr csv_bytes →
     put_object c (default_bucket self b) key csv_bytes
       (List.length csv_bytes) "application/csv" (server w) = (s', inl e) →
     save_obj self df key sep b w =
       (mkWorld (environ w) s' (stdout w), inl e)) ∧
  (copy_object c (default_bucket self b') key'
     (mkCopySource (default_bucket self b) key) (server w) = (s', inl e) →
   copy_obj self key key' b b' w =
     (mkWorld (environ w) s' (stdout w), inl e)).
Proof.
  intros Hc. repeat split.
  - intros Hcall. rewrite (print_list_objects_run self c) by assumption.
    unfold list_in. by rewrite Hcall.
  - intros Hcall. rewrite (load_obj_run self c) by assumption.
    unfold read_in. by rewrite Hcall.
  - intros text csv_bytes Hcsv Henc Hcall.
    rewrite (save_obj_run self c) by assumption.
    unfold write_in. by rewrite Hcsv, Henc, Hcall.
  - intros Hcall. rewrite (copy_obj_run self c) by assumption.
    unfold copy_in. by rewrite Hcall.
Qed.

(** X12.  With a default bucket configured, a write followed by a read of
    the same key meet in that bucket whatever bucket arguments the two
    calls pass: the read returns what the SDK serves for the key just
    put. *)
Theorem save_then_load_same_bucket self c d (df : DataFrame) key sep b1 b2 w
    text csv_bytes s1 r s2 resp :
  _client self = Some c →
  _bucket self = Some d →
  to_csv df {| kw_sep := sep; kw_header := true; kw_index := false |} =
    inr text →
  encode text "utf-8" = inr csv_bytes →
  put_object c (Some d) key csv_bytes (List.length csv_bytes)
    "application/csv" (server w) = (s1, inr r) →
  get_object c (Some d) key s1 = (s2, inr resp) →
  bind (save_obj self df key sep b1) (fun _ => load_obj self key b2) w =
    (mkWorld (environ w) s2 (stdout w), inr resp).
Proof.
  intros Hc Hd Hcsv Henc Hput Hget.
  unfold bind. rewrite (save_obj_run self c) by assumption.
  unfold write_in, default_bucket. rewrite Hd, Hcsv, Henc, Hput.
  rewrite (load_obj_run self c) by assumption.
  unfold read_in, default_bucket. rewrite Hd. simpl. by rewrite Hget.
Qed.


End OperationProperties.

(** *** The further properties on the example inputs *)

Lemma init_env_file_discards_arguments_witness :
  __init__ (dotenv := FilesDotEnv files_plain) (sdk := MemSDK) args_env world0 =
  __init__ (dotenv := FilesDotEnv files_plain) (sdk := MemSDK)
    args_env_explicit world0.
Proof.
  apply (init_env_file_discards_arguments (dotenv := FilesDotEnv files_plain)
           (sdk := MemSDK) args_env args_env_explicit "minio.env" world0);
    reflexivity.
Defined.

Lemma init_client_matches_fields_witness :
  ∃ c,
    _client api_from_file = Some c ∧
    mem_Minio (Some "minio:9000") (Some "filekey") (Some "filesecret") true
      (mkPoolManager "CERT_REQUIRED" (Some "/etc/ssl/ca.pem")) = inr c.
Proof.
  apply (init_client_matches_fields (dotenv := FilesDotEnv files_plain)
           (sdk := MemSDK) args_env_explicit world0 world0 api_from_file).
  vm_compute. reflexivity.
Defined.

Lemma init_file_only_fields_witness :
  environ world_env_bucket !! "BUCKET" = Some "envbucket" ∧
  _ca_certs api_from_file = Some "/etc/ssl/ca.pem" ∧
  _url_port api_from_file = Some "minio:9000" ∧
  _bucket api_from_file = Some "data".
Proof.
  split; [vm_compute; reflexivity |].
  destruct (init_file_only_fields (dotenv := FilesDotEnv files_plain)
              (sdk := MemSDK) args_env "minio.env" world_env_bucket
              world_env_bucket api_from_file
              (list_to_map (("MINIO_ENV", Some "secret.env") :: main_lines)))
    as (Hca & Hurl & Hb); [reflexivity | reflexivity | vm_compute; reflexivity |].
  vm_compute in Hca, Hurl, Hb.
  repeat split; congruence.
Defined.

Lemma init_without_MINIO_ENV_raises_witness :
  __init__ (dotenv := FilesDotEnv files_no_indirection) (sdk := MemSDK)
    args_env world0 = (world0, inl (KeyError "MINIO_ENV")).
Proof.
  apply (init_without_MINIO_ENV_raises
           (dotenv := FilesDotEnv files_no_indirection) (sdk := MemSDK)
           args_env "minio.env" world0 (list_to_map main_lines));
    vm_compute; reflexivity.
Defined.

Lemma init_without_env_file_keeps_arguments_witness :
  _ACCESS_KEY api_fresh = None ∧
  _SECRET_KEY api_fresh = None ∧
  _ca_certs api_fresh = None ∧
  _url_port api_fresh = Some "tllihpcmind6:9000".
Proof.
  apply (init_without_env_file_keeps_arguments (dotenv := FilesDotEnv [])
           (sdk := MemSDK) InitArgs_defaults world0 world0 api_fresh);
    reflexivity.
Defined.

Lemma default_bucket_overrides_argument_witness :
  print_list_objects (sdk := MemSDK) api_data (Some "other") None true world0 =
  list_in (sdk := MemSDK) client0 (Some "data") None true world0.
Proof.
  apply (proj1 (default_bucket_overrides_argument (sdk := MemSDK)
                  (pandas := FramePandas) api_data client0 "data" frame0
                  world0 eq_refl eq_refl)).
Defined.

Lemma remove_obj_never_reads_default_bucket_witness :
  remove_obj (sdk := MemSDK) api_data "a.csv" (Some "other") world0 =
  remove_obj (sdk := MemSDK) api_nobucket "a.csv" (Some "other") world0.
Proof.
  apply (remove_obj_never_reads_default_bucket (sdk := MemSDK) api_data
           api_nobucket "a.csv" (Some "other") world0).
  reflexivity.
Defined.

(** A two-character separator is refused by [to_csv]. *)
Lemma save_obj_serialization_failure_witness :
  save_obj (sdk := MemSDK) (pandas := FramePandas) api_data frame0 "a/b.csv"
    ";;" None world0 =
    (world0, inl (TypeError "delimiter must be a 1-character string")).
Proof.
  apply (save_obj_serialization_failure (sdk := MemSDK)
           (pandas := FramePandas) api_data frame0 "a/b.csv" ";;" None world0).
  left. reflexivity.
Defined.

Lemma sdk_errors_propagate_witness :
  print_list_objects (sdk := MemSDK) api_nobucket (Some "nosuch") None true
    world0 = (world0, inl (S3Error "NoSuchBucket")).
Proof.
  apply (proj1 (sdk_errors_propagate (sdk := MemSDK) (pandas := FramePandas)
                  api_nobucket client0 frame0 "a.csv" "b.csv" ","
                  (Some "nosuch") None None true world0 store0
                  (S3Error "NoSuchBucket") eq_refl)).
  reflexivity.
Defined.

Lemma save_then_load_same_bucket_witness :
  bind (save_obj (sdk := MemSDK) (pandas := FramePandas) api_data frame0
          "a/b.csv" "," (Some "other"))
       (fun _ => load_obj (sdk := MemSDK) api_data "a/b.csv" None) world0 =
    (mkWorld ∅ store_written [],
     inr (mkHTTPResponse 200 (list_byte_of_string frame0_csv))).
Proof.
  apply (save_then_load_same_bucket (sdk := MemSDK) (pandas := FramePandas)
           api_data client0 "data" frame0 "a/b.csv" "," (Some "other") None
           world0 frame0_csv (list_byte_of_string frame0_csv) store_written
           (mkObjectWriteResult (Some "data") "a/b.csv" None) store_written
           (mkHTTPResponse 200 (list_byte_of_string frame0_csv)));
    vm_compute; reflexivity.
Defined.


(** ** When resolution succeeds *)

Section ResolutionSuccess.

Context {Client Server : Type} {dotenv : DotEnv}.

Implicit Types (self : MinioAPI Client) (w : World Server).

(** X14.  Once the file is parsed, holds [MINIO_ENV], and the secondary
    file is loaded, [_process_env] returns an object exactly when each of
    the five required fields has an entry in the overlaid dict. *)
Theorem process_env_succeeds_iff self fname w d p env' :
  dotenv_values fname = inr d →
  d !! "MINIO_ENV" = Some p →
  load_dotenv p (environ w) = inr env' →
  (∃ self',
     _process_env self fname w =
       (mkWorld env' (server w) (stdout w), inr self')) ↔
  (∀ k, k ∈ required_fields → is_Some (resolved_config d env' !! k)).
Proof.
  intros Hd Hp Hl.
  rewrite (_process_env_loaded self fname w d p env') by assumption.
  split.
  - intros (self' & Hrun). injection Hrun as Hread.
    apply read_fields_inr in Hread as (Ha & Hs & Hc & Hu & Hb & _).
    intros k Hk. unfold required_fields in Hk.
    repeat (apply elem_of_cons in Hk as [-> | Hk]; [eauto |]).
    by apply elem_of_nil in Hk.
  - intros Hall.
    destruct (read_fields self (resolved_config d env')) as [e | self'] eqn:Hread;
      [| eauto].
    exfalso. unfold read_fields, getitem in Hread.
    assert (∀ k, k ∈ required_fields →
                 resolved_config d env' !! k ≠ None) as Hsome.
    { intros k Hk Hnone. destruct (Hall k Hk) as [v Hv]. congruence. }
    unfold required_fields in Hsome.
    repeat (match type of Hread with
            | context [resolved_config d env' !! ?k] =>
                destruct (resolved_config d env' !! k) eqn:?;
                [| eapply (Hsome k); [rewrite !elem_of_cons; tauto | eassumption]]
            end).
    discriminate.
Qed.

(** X15.  The file need not hold the two keys.  When the environment left
    by [load_dotenv] has non-empty [ACCESS_KEY] and [SECRET_KEY] and the
    file holds [MINIO_ENV], [CA_CERTS], [URL_PORT] and [BUCKET],
    [_process_env] succeeds with the keys of the environment and the other
    three fields of the file. *)
Theorem env_supplies_missing_keys self fname w d p env' a s c u b :
  dotenv_values fname = inr d →
  d !! "MINIO_ENV" = Some p →
  load_dotenv p (environ w) = inr env' →
  env' !! "ACCESS_KEY" = Some a → a ≠ "" →
  env' !! "SECRET_KEY" = Some s → s ≠ "" →
  d !! "CA_CERTS" = Some c →
  d !! "URL_PORT" = Some u →
  d !! "BUCKET" = Some b →
  _process_env self fname w =
    (mkWorld env' (server w) (stdout w),
     inr (mkMinioAPI (Some a) (Some s) c u b (_client self))).
Proof.
  intros Hd Hp Hl Ha Hane Hs Hsne Hc Hu Hb.
  rewrite (_process_env_loaded self fname w d p env') by assumption.
  f_equal. apply read_fields_inr. simpl.
  rewrite resolved_ACCESS_KEY, resolved_SECRET_KEY, Ha, Hs.
  rewrite !truthy_Some_nonempty by assumption.
  rewrite !resolved_other by discriminate. auto 10.
Qed.

End ResolutionSuccess.

Lemma process_env_succeeds_iff_witness :
  (∃ self',
     _process_env (dotenv := FilesDotEnv files_keys_in_secret) api_blank
       "minio.env" world0 = (world_override, inr self')) ↔
  (∀ k, k ∈ required_fields →
        is_Some (resolved_config
                   (list_to_map
                      [("MINIO_ENV", Some "secret.env");
                       ("CA_CERTS", Some "/etc/ssl/ca.pem");
                       ("URL_PORT", Some "minio:9000");
                       ("BUCKET", Some "data")])
                   (environ world_override) !! k)).
Proof.
  apply (process_env_succeeds_iff (dotenv := FilesDotEnv files_keys_in_secret)
           api_blank "minio.env" world0 _ (Some "secret.env")
           (environ world_override));
    vm_compute; reflexivity.
Defined.

Lemma env_supplies_missing_keys_witness :
  _process_env (dotenv := FilesDotEnv files_keys_in_secret) api_blank
    "minio.env" world0 = (world_override, inr api_override).
Proof.
  apply (env_supplies_missing_keys
           (dotenv := FilesDotEnv files_keys_in_secret) api_blank "minio.env"
           world0
           (list_to_map
              [("MINIO_ENV", Some "secret.env");
               ("CA_CERTS", Some "/etc/ssl/ca.pem");
               ("URL_PORT", Some "minio:9000"); ("BUCKET", Some "data")])
           (Some "secret.env") (environ world_override)
           "envkey" "envsecret" (Some "/etc/ssl/ca.pem") (Some "minio:9000")
           (Some "data"));
    try (vm_compute; reflexivity); discriminate.
Defined.
